(** * pkg/template/processor.go: rendering a template and applying its objects

    A shallow embedding of [Processor.Process], [Processor.Apply] and
    [createOrUpdateObj].  The packages the file imports are kept as name
    spaces ([schema], [unstructured], [runtime], [types], [apierrors],
    [client], [templatev1], [templateprocessing]); what those packages
    compute and this file only calls is an argument of the model. *)

From Stdlib Require Import ZArith.
From Stdlib.Strings Require Import Byte.
From stdpp Require Import gmap strings list fin_maps functions.

Local Open Scope string_scope.
Local Open Scope list_scope.

(** ** k8s.io/apimachinery: kinds, objects, pointers to objects *)

Module schema.
Record GroupVersionKind := {
  Group : string;
  Version : string;
  Kind : string }.
End schema.

Module unstructured.
(** [unstructured.Unstructured] holds a decoded JSON document.  The
    accessors the processor calls read the five fields below; [Fields]
    is all the rest of the document. *)
Record Unstructured := {
  GetKind : string;
  GetAPIVersion : string;
  GetNamespace : string;
  GetName : string;
  GetResourceVersion : string;
  Fields : list (string * string) }.

(** [&unstructured.Unstructured{}] *)
Definition empty : Unstructured :=
  {| GetKind := ""; GetAPIVersion := ""; GetNamespace := ""; GetName := "";
     GetResourceVersion := ""; Fields := [] |}.

Definition SetKind (u : Unstructured) (kind : string) : Unstructured :=
  {| GetKind := kind; GetAPIVersion := GetAPIVersion u;
     GetNamespace := GetNamespace u; GetName := GetName u;
     GetResourceVersion := GetResourceVersion u; Fields := Fields u |}.

Definition SetAPIVersion (u : Unstructured) (version : string) : Unstructured :=
  {| GetKind := GetKind u; GetAPIVersion := version;
     GetNamespace := GetNamespace u; GetName := GetName u;
     GetResourceVersion := GetResourceVersion u; Fields := Fields u |}.

Definition SetResourceVersion (u : Unstructured) (version : string) : Unstructured :=
  {| GetKind := GetKind u; GetAPIVersion := GetAPIVersion u;
     GetNamespace := GetNamespace u; GetName := GetName u;
     GetResourceVersion := version; Fields := Fields u |}.
End unstructured.

Module runtime.
(** A resource of some Go type other than [unstructured.Unstructured];
    the processor never looks inside one. *)
Record Typed := {
  GoType : string;
  Content : list (string * string) }.

(** What a [runtime.Object] interface value points to.  The type assertion
    of [obj] to a pointer to [unstructured.Unstructured] is the match on the
    constructor. *)
Inductive Object :=
| OUnstructured (u : unstructured.Unstructured)
| OTyped (t : Typed).

(** A [runtime.Object] held in a slice is a pointer: two entries may share
    one object, and a write through one is seen through the other. *)
Abbreviation ptr := nat (only parsing).

(** The objects behind the pointers.  Total: a Go pointer held by a live
    interface value never dangles. *)
Abbreviation Heap := (ptr -> Object) (only parsing).

Record RawExtension := {
  Raw : list byte;
  Object_ : option ptr  (* the field [Object]; [None] is a nil interface *) }.
End runtime.

Module types.
Record NamespacedName := {
  Namespace : string;
  Name : string }.
End types.

(** ** Errors *)

(** An argument of a format string: [%s] takes a string, [%v] the object. *)
Inductive Arg :=
| ArgS (s : string)
| ArgV (obj : runtime.Object).

Module field.
(** One entry of a [field.ErrorList], for [template.parameters[index]]. *)
Inductive Error :=
| NotFound (index : nat)
| Invalid (index : nat) (detail : string)
| Required (index : nat)
| Other (path detail : string).
End field.

Module metav1.
Inductive StatusReason :=
| StatusReasonUnknown
| StatusReasonAlreadyExists
| StatusReasonNotFound
| StatusReasonConflict
| StatusReasonForbidden
| StatusReasonInvalid.
End metav1.

(** A Go [error] value.  [Wrapf cause format args] is
    [errors.Wrapf(cause, format, args...)] of github.com/pkg/errors: the
    cause with one more line of context in front; [Aggregate errs] is
    [errs.ToAggregate()]. *)
Inductive Error :=
| StatusError (reason : metav1.StatusReason) (message : string)
| ErrorString (message : string)
| Aggregate (errs : list field.Error)
| Wrapf (cause : Error) (format : string) (args : list Arg).

(** [errors.Wrap(cause, message)] *)
Definition Wrap (cause : Error) (message : string) : Error :=
  Wrapf cause message [].

Module apierrors.
(** [apierrors.IsAlreadyExists]: the reason the API status carries is
    [AlreadyExists]. *)
Definition IsAlreadyExists (err : Error) : bool :=
  match err with
  | StatusError metav1.StatusReasonAlreadyExists _ => true
  | _ => false
  end.
End apierrors.

(** ** sigs.k8s.io/controller-runtime: the cluster client *)

Module client.
(** [client.Client], as far as the processor uses it, over a cluster whose
    state has type [S].  Each call answers with an error or [None] (Go's
    [nil]) and leaves the cluster in a new state; [Get] fills the object it
    is handed, here always an [Unstructured]. *)
Record Client (S : Type) := {
  Create : runtime.Object -> S -> option Error * S;
  Get : types.NamespacedName -> unstructured.Unstructured -> S ->
        option Error * unstructured.Unstructured * S;
  Update : runtime.Object -> S -> option Error * S }.
Arguments Create {S} _ _ _.
Arguments Get {S} _ _ _ _.
Arguments Update {S} _ _ _.

(** A request as the client receives it. *)
Inductive Call :=
| CallCreate (obj : runtime.Object)
| CallGet (key : types.NamespacedName) (into : unstructured.Unstructured)
| CallUpdate (obj : runtime.Object).

(** The same client with every request it receives written down, oldest
    first, next to the cluster state. *)
Definition recording {S} (cl : Client S) : Client (S * list Call) :=
  {| Create obj st :=
       let '(err, s) := Create cl obj (fst st) in
       (err, (s, snd st ++ [CallCreate obj]));
     Get key into st :=
       let '(err, out, s) := Get cl key into (fst st) in
       (err, out, (s, snd st ++ [CallGet key into]));
     Update obj st :=
       let '(err, s) := Update cl obj (fst st) in
       (err, (s, snd st ++ [CallUpdate obj])) |}.
End client.

(** ** github.com/openshift/api/template/v1 *)

Module templatev1.
(** The type [Parameter] of the package. *)
Record Param := {
  Name : string;
  DisplayName : string;
  Description : string;
  Value : string;
  Generate : string;
  From : string;
  Required : bool }.

Record Template := {
  Message : string;
  Objects : list runtime.RawExtension;
  Parameters : list Param;
  ObjectLabels : list (string * string) }.

(** [v.Value = val] *)
Definition setValue (v : Param) (val : string) : Param :=
  {| Name := Name v; DisplayName := DisplayName v; Description := Description v;
     Value := val; Generate := Generate v; From := From v;
     Required := Required v |}.

(** [v.Generate = generate] *)
Definition setGenerate (v : Param) (generate : string) : Param :=
  {| Name := Name v; DisplayName := DisplayName v; Description := Description v;
     Value := Value v; Generate := generate; From := From v;
     Required := Required v |}.

(** [tmpl.Parameters = params] *)
Definition setParameters (tmpl : Template) (params : list Param) : Template :=
  {| Message := Message tmpl; Objects := Objects tmpl; Parameters := params;
     ObjectLabels := ObjectLabels tmpl |}.
End templatev1.

(** [runtime.Scheme], as far as the processor uses it: [Convert(in, out, nil)]
    answers with an error or [None] and with what it wrote to [out]. *)
Record Scheme := {
  Convert : templatev1.Template -> option Error * templatev1.Template }.

(** ** github.com/openshift/library-go/pkg/template: the template engine *)

Module templateprocessing.
(** Modelled from the spec: [templateprocessing.GetParameterByName], which
    is not part of processor.go.  "For every override whose name matches a
    parameter in the template": the parameter is looked up by its name, and
    the answer is a pointer into [tmpl.Parameters], here the index of the
    first parameter of that name; [None] is Go's [nil]. *)
Definition GetParameterByName (tmpl : templatev1.Template) (name : string)
    : option nat :=
  fst <$> list_find (fun param => templatev1.Name param = name)
                    (templatev1.Parameters tmpl).

Section Engine.
(** The state of the random source a generator draws from. *)
Context {Rand : Type}.
(** What the engine does once every parameter has its value: it substitutes
    the parameters into the message, the labels and the objects. *)
Context (SubstituteParameters :
           templatev1.Template -> templatev1.Template * list field.Error).

(** [generator.Generator]: [GenerateValue(expression)] answers with the
    value or with the text of an error, and advances the random source. *)
Definition Generator : Type := string -> Rand -> (string + string) * Rand.

Record Processor := {
  Generators : gmap string Generator }.

Definition NewProcessor (generators : gmap string Generator) : Processor :=
  {| Generators := generators |}.

(** Modelled from the spec: the first pass of the engine's [Process], which
    is not part of processor.go.  A generator directive produces "a computed
    value (e.g., random expression) when no explicit value is supplied", with
    "a registered generator", and "expansion must fully resolve all generator
    directives or the whole operation fails": a parameter that has a value is
    left alone; one without a value and with a directive gets the value its
    registered generator computes, or an error; a required parameter that
    ends up without a value is an error. *)
Fixpoint GenerateParameterValues (p : Processor) (i : nat)
    (params : list templatev1.Param) (r : Rand)
    : list templatev1.Param * list field.Error * Rand :=
  match params with
  | [] => ([], [], r)
  | param :: rest =>
    let required (param : templatev1.Param) : list field.Error :=
      if bool_decide (templatev1.Value param = "") && templatev1.Required param
      then [field.Required i] else [] in
    let '(param, errs, r) :=
      if negb (bool_decide (templatev1.Value param = "")) then (param, [], r)
      else if negb (bool_decide (templatev1.Generate param = "")) then
        match Generators p !! templatev1.Generate param with
        | None => (param, [field.NotFound i], r)
        | Some generator =>
          match generator (templatev1.From param) r with
          | (inl detail, r) => (param, [field.Invalid i detail], r)
          | (inr value, r) =>
            let param := templatev1.setValue param value in
            (param, required param, r)
          end
        end
      else (param, required param, r) in
    let '(rest, errs', r) := GenerateParameterValues p (S i) rest r in
    (param :: rest, errs ++ errs', r)
  end.

(** Modelled from the spec: the engine's [Process], which is not part of
    processor.go.  It works on the template it is handed, in place: first
    the parameter values, then, if that raised no error, the substitution.
    The answer is the template as the engine leaves it and the errors. *)
Definition Process (p : Processor) (tmpl : templatev1.Template) (r : Rand)
    : templatev1.Template * list field.Error :=
  let '(params, errs, _) :=
    GenerateParameterValues p 0 (templatev1.Parameters tmpl) r in
  let tmpl := templatev1.setParameters tmpl params in
  match errs with
  | _ :: _ => (tmpl, errs)
  | [] => SubstituteParameters tmpl
  end.
End Engine.
End templateprocessing.

(** ** The processor: filtering *)

(** Modelled from the spec: the type [FilterFunc] of this package, declared
    outside processor.go.  "A predicate over rendered objects", "stateless". *)
Definition FilterFunc : Type := runtime.RawExtension -> bool.

(** Modelled from the spec: [Filter] of this package, defined outside
    processor.go.  "Apply filters, if any, to the object list in sequence":
    each filter in turn keeps, of the list it is given, the objects it
    accepts. *)
Fixpoint Filter (objs : list runtime.RawExtension) (filters : list FilterFunc)
    : list runtime.RawExtension :=
  match filters with
  | [] => objs
  | filter :: filters => Filter (List.filter filter objs) filters
  end.

(** ** The processor *)

Record Processor (S : Type) := {
  cl : client.Client S;
  scheme : Scheme }.
Arguments cl {S} _.
Arguments scheme {S} _.

(** [NewProcessor] *)
Definition NewProcessor {S} (cl : client.Client S) (scheme : Scheme)
    : Processor S :=
  {| cl := cl; scheme := scheme |}.

(** ** The processor: rendering a template *)

(** The names of the parameters, in order. *)
Definition names (tmpl : templatev1.Template) : list string :=
  templatev1.Name <$> templatev1.Parameters tmpl.

(** The template with the values in place, parameter by parameter: a
    parameter gets the value given for its name, and loses its generator
    directive, when it is the parameter its name leads to; every other
    parameter, and all the rest of the template, is as it was. *)
Definition overridden (tmpl : templatev1.Template) (values : gmap string string)
    : templatev1.Template :=
  templatev1.setParameters tmpl
    (imap (fun i v =>
             match values !! templatev1.Name v with
             | Some val =>
               if decide (templateprocessing.GetParameterByName tmpl
                            (templatev1.Name v) = Some i)
               then templatev1.setGenerate (templatev1.setValue v val) ""
               else v
             | None => v
             end)
          (templatev1.Parameters tmpl)).

Section Process.
Context {S Rand : Type}.
(** [rand.New(rand.NewSource(seed))] *)
Context (NewSource : Z -> Rand).
(** [generator.NewExpressionValueGenerator], already handed its random
    source by the caller of [GenerateValue]. *)
Context (NewExpressionValueGenerator : @templateprocessing.Generator Rand).
Context (SubstituteParameters :
           templatev1.Template -> templatev1.Template * list field.Error).

(** One turn of the loop over [values]: [v] is a pointer into
    [tmpl.Parameters], and the two assignments go through it. *)
Definition injectValue (param val : string) (tmpl : templatev1.Template)
    : templatev1.Template :=
  match templateprocessing.GetParameterByName tmpl param with
  | Some v =>
    templatev1.setParameters tmpl
      (alter (fun v => templatev1.setGenerate (templatev1.setValue v val) "")
             v (templatev1.Parameters tmpl))
  | None => tmpl
  end.

(** [Processor.Process].  [now] is the reading of [time.Now().UnixNano()].
    The template is the caller's, behind a pointer: the first component of
    the answer is that template as the call leaves it, the second is what
    the call returns ([[]] for a nil slice). *)
Definition Process (p : Processor S) (now : Z) (tmpl : templatev1.Template)
    (values : gmap string string) (filters : list FilterFunc)
    : templatev1.Template * (list runtime.RawExtension * option Error) :=
  (* inject variables in the template; Go visits the entries of [values] in
     an order of its own, which makes no difference to the outcome *)
  let tmpl := map_fold injectValue tmpl values in
  (* convert the template into a set of objects *)
  let tmplProcessor :=
    templateprocessing.NewProcessor
      {[ "expression" := NewExpressionValueGenerator ]} in
  let '(tmpl, err) :=
    templateprocessing.Process SubstituteParameters tmplProcessor tmpl
      (NewSource now) in
  match err with
  | _ :: _ => (tmpl, ([], Some (Wrap (Aggregate err) "unable to process template")))
  | [] =>
    let '(err, result) := Convert (scheme p) tmpl in
    match err with
    | Some err =>
      (tmpl, ([], Some (Wrap err "failed to convert template to external template object")))
    | None => (tmpl, (Filter (templatev1.Objects result) filters, None))
    end
  end.
End Process.

(** ** The processor: applying objects *)

Section Apply.
Context {S : Type}.
(** [obj.GetObjectKind().GroupVersionKind()], a method of the object's own
    type. *)
Context (GroupVersionKind : runtime.Object -> schema.GroupVersionKind).

Definition createOrUpdateObj (cl : client.Client S) (obj : runtime.ptr)
    (h : runtime.Heap) (s : S) : option Error * runtime.Heap * S :=
  let '(err, s) := client.Create cl (h obj) s in
  match err with
  | Some err =>
    if negb (apierrors.IsAlreadyExists err) then
      (Some (Wrapf err "failed to create object %v" [ArgV (h obj)]), h, s)
    else
      match h obj with
      | runtime.OUnstructured u =>
        (* get the existing NSTemplateTier *)
        let existing := unstructured.empty in
        let existing := unstructured.SetKind existing (unstructured.GetKind u) in
        let existing :=
          unstructured.SetAPIVersion existing (unstructured.GetAPIVersion u) in
        let '(err, existing, s) :=
          client.Get cl
            {| types.Namespace := unstructured.GetNamespace u;
               types.Name := unstructured.GetName u |} existing s in
        match err with
        | Some err =>
          (Some (Wrapf err
                   "unable to get the resource of kind '%s' and name '%s' in namespace '%s'"
                   [ArgS (unstructured.GetKind u); ArgS (unstructured.GetName u);
                    ArgS (unstructured.GetNamespace u)]), h, s)
        | None =>
          (* retrieve the current 'resourceVersion' to set it in the
             resource passed to the `client.Update()` *)
          let u :=
            unstructured.SetResourceVersion u
              (unstructured.GetResourceVersion existing) in
          let h := <[obj := runtime.OUnstructured u]> h in
          let '(err, s) := client.Update cl (runtime.OUnstructured u) s in
          match err with
          | Some err =>
            (Some (Wrapf err
                     "unable to update the resource of kind '%s' and name '%s' in namespace '%s'"
                     [ArgS (unstructured.GetKind u); ArgS (unstructured.GetName u);
                      ArgS (unstructured.GetNamespace u)]), h, s)
          | None => (None, h, s)
          end
        end
      | runtime.OTyped _ =>
        let '(err, s) := client.Update cl (h obj) s in
        match err with
        | Some err =>
          (Some (Wrapf err "failed to update object %v" [ArgV (h obj)]), h, s)
        | None => (None, h, s)
        end
      end
  | None => (None, h, s)
  end.

(** [Processor.Apply].  The objects are the caller's, behind pointers: the
    heap of the answer is what the call leaves of them. *)
Fixpoint Apply (p : Processor S) (objs : list runtime.RawExtension)
    (h : runtime.Heap) (s : S) : option Error * runtime.Heap * S :=
  match objs with
  | [] => (None, h, s)
  | rawObj :: objs =>
    match runtime.Object_ rawObj with
    | None => Apply p objs h s
    | Some obj =>
      let gvk := GroupVersionKind (h obj) in
      let '(err, h, s) := createOrUpdateObj (cl p) obj h s in
      match err with
      | Some err =>
        (Some (Wrapf err "unable to create resource of kind: %s, version: %s"
                 [ArgS (schema.Kind gvk); ArgS (schema.Version gvk)]), h, s)
      | None => Apply p objs h s
      end
    end
  end.
End Apply.

(** The processor [p] with its requests to the cluster written down. *)
Definition recorded {S} (p : Processor S) : Processor (S * list client.Call) :=
  {| cl := client.recording (cl p); scheme := scheme p |}.

(** The context [Apply] puts in front of an error of [createOrUpdateObj]. *)
Definition applyContext (gvk : schema.GroupVersionKind) (err : Error) : Error :=
  Wrapf err "unable to create resource of kind: %s, version: %s"
    [ArgS (schema.Kind gvk); ArgS (schema.Version gvk)].

(** All the arguments of all the contexts an error has been put under, the
    outermost first. *)
Fixpoint contextArgs (err : Error) : list Arg :=
  match err with
  | Wrapf cause _ args => args ++ contextArgs cause
  | _ => []
  end.

(** What an argument puts into the text of a message.  [%s] puts the string
    itself.  [%v] puts the object as a whole, every value it holds: for an
    [Unstructured] its kind, apiVersion, namespace, name and resource version
    and the values of its other fields. *)
Definition shown (arg : Arg) : list string :=
  match arg with
  | ArgS s => [s]
  | ArgV (runtime.OUnstructured u) =>
    [unstructured.GetKind u; unstructured.GetAPIVersion u;
     unstructured.GetNamespace u; unstructured.GetName u;
     unstructured.GetResourceVersion u] ++ (unstructured.Fields u).*2
  | ArgV (runtime.OTyped t) => (runtime.Content t).*2
  end.

(** All that the contexts of an error put into its text. *)
Definition carried (err : Error) : list string :=
  concat (shown <$> contextArgs err).

(** The key and the empty object [createOrUpdateObj] hands to [Get] for [u]. *)
Definition keyOf (u : unstructured.Unstructured) : types.NamespacedName :=
  {| types.Namespace := unstructured.GetNamespace u;
     types.Name := unstructured.GetName u |}.

Definition existingFor (u : unstructured.Unstructured) : unstructured.Unstructured :=
  unstructured.SetAPIVersion
    (unstructured.SetKind unstructured.empty (unstructured.GetKind u))
    (unstructured.GetAPIVersion u).

(** The requests the entry for an object can give rise to, the object being
    [obj] when the entry is reached: the [Create] of [obj] alone; for an
    [Unstructured], the [Create] and the [Get] for it; these two and the
    [Update] of it under some resource version; for an object that is not an
    [Unstructured], the [Create] and the [Update] of it. *)
Inductive entryCalls : runtime.Object -> list client.Call -> Prop :=
| callsCreate obj :
    entryCalls obj [client.CallCreate obj]
| callsCreateGet u :
    entryCalls (runtime.OUnstructured u)
      [client.CallCreate (runtime.OUnstructured u);
       client.CallGet (keyOf u) (existingFor u)]
| callsCreateGetUpdate u version :
    entryCalls (runtime.OUnstructured u)
      [client.CallCreate (runtime.OUnstructured u);
       client.CallGet (keyOf u) (existingFor u);
       client.CallUpdate
         (runtime.OUnstructured (unstructured.SetResourceVersion u version))]
| callsCreateUpdate t :
    entryCalls (runtime.OTyped t)
      [client.CallCreate (runtime.OTyped t);
       client.CallUpdate (runtime.OTyped t)].

(** The entries of a list that hold an object. *)
Definition holding (objs : list runtime.RawExtension) : list runtime.RawExtension :=
  List.filter (fun rawObj => bool_decide (is_Some (runtime.Object_ rawObj))) objs.

(** ** Sample data *)

Module sample.
(** A client that answers every [Create], every [Get] and every [Update] the
    same way; a successful [Get] reports the resource version [version]. *)
Definition answering (create get update : option Error) (version : string)
    : client.Client unit :=
  {| client.Create _ s := (create, s);
     client.Get _ into s := (get, unstructured.SetResourceVersion into version, s);
     client.Update _ s := (update, s) |}.

Definition alreadyExists : Error :=
  StatusError metav1.StatusReasonAlreadyExists "nstemplatetiers.toolchain.dev.openshift.com basic already exists".
Definition forbidden : Error :=
  StatusError metav1.StatusReasonForbidden "forbidden".
Definition conflict : Error :=
  StatusError metav1.StatusReasonConflict "the object has been modified".

Definition tier : unstructured.Unstructured :=
  {| unstructured.GetKind := "NSTemplateTier";
     unstructured.GetAPIVersion := "toolchain.dev.openshift.com/v1alpha1";
     unstructured.GetNamespace := "toolchain-host-operator";
     unstructured.GetName := "basic";
     unstructured.GetResourceVersion := "";
     unstructured.Fields := [("spec", "{}")] |}.

Definition ns : runtime.Typed :=
  {| runtime.GoType := "corev1.Namespace";
     runtime.Content := [("name", "john-dev")] |}.

(** Pointer 0 is the tier, every other pointer the namespace. *)
Definition heap : runtime.Heap :=
  fun obj => match obj with
             | 0 => runtime.OUnstructured tier
             | _ => runtime.OTyped ns
             end.

Definition raw (obj : runtime.ptr) : runtime.RawExtension :=
  {| runtime.Raw := []; runtime.Object_ := Some obj |}.

Definition gvk (obj : runtime.Object) : schema.GroupVersionKind :=
  match obj with
  | runtime.OUnstructured u =>
    {| schema.Group := "toolchain.dev.openshift.com"; schema.Version := "v1alpha1";
       schema.Kind := unstructured.GetKind u |}
  | runtime.OTyped t =>
    {| schema.Group := ""; schema.Version := "v1"; schema.Kind := "Namespace" |}
  end.

Definition convertOK : Scheme := {| Convert tmpl := (None, tmpl) |}.
Definition convertKO : Scheme :=
  {| Convert tmpl :=
       (Some (ErrorString "converting (v1.Template) to (v1.Template): unknown conversion"),
        tmpl) |}.

(** The tier and the namespace are on the cluster already. *)
Definition present : Processor unit :=
  NewProcessor (answering (Some alreadyExists) None None "42") convertOK.
(** The tier is there, but the client may not read it. *)
Definition unreadable : Processor unit :=
  NewProcessor (answering (Some alreadyExists) (Some forbidden) None "42") convertOK.
(** Nothing is on the cluster yet. *)
Definition fresh : Processor unit :=
  NewProcessor (answering None None None "42") convertOK.
(** The client may not create anything. *)
Definition readonly : Processor unit :=
  NewProcessor (answering (Some forbidden) None None "42") convertOK.
(** The scheme cannot convert templates. *)
Definition unconvertible : Processor unit :=
  NewProcessor (answering None None None "42") convertKO.
(** Updates come too late. *)
Definition stale : Processor unit :=
  NewProcessor (answering (Some alreadyExists) None (Some conflict) "42") convertOK.

(** A random source that is its seed, and a generator that tosses a coin
    with it. *)
Definition newSource (seed : Z) : Z := seed.
Definition coin : @templateprocessing.Generator Z :=
  fun _ r => (inr (if Z.even r then "heads" else "tails"), (r + 1)%Z).
(** An engine whose second pass leaves the template as it is. *)
Definition substitute (tmpl : templatev1.Template)
    : templatev1.Template * list field.Error :=
  (tmpl, []).

Definition username : templatev1.Param :=
  {| templatev1.Name := "USERNAME"; templatev1.DisplayName := "";
     templatev1.Description := ""; templatev1.Value := "";
     templatev1.Generate := ""; templatev1.From := "";
     templatev1.Required := true |}.
Definition token : templatev1.Param :=
  {| templatev1.Name := "TOKEN"; templatev1.DisplayName := "";
     templatev1.Description := ""; templatev1.Value := "";
     templatev1.Generate := "expression"; templatev1.From := "[a-z]{8}";
     templatev1.Required := false |}.
Definition template : templatev1.Template :=
  {| templatev1.Message := ""; templatev1.Objects := [raw 0; raw 1];
     templatev1.Parameters := [username; token];
     templatev1.ObjectLabels := [] |}.

Definition john : gmap string string := {[ "USERNAME" := "john" ]}.
Definition johnWithToken : gmap string string :=
  <[ "TOKEN" := "s3cr3t" ]> john.
Definition johnWithProject : gmap string string :=
  <[ "PROJECT" := "dev" ]> john.

Definition render (p : Processor unit) :=
  Process newSource coin substitute p.
End sample.

(** ** Applying objects: what the cluster sees *)

Section ApplyFacts.
Context {S : Type}.
Context (GroupVersionKind : runtime.Object -> schema.GroupVersionKind).
Implicit Types (p : Processor S) (objs pre post : list runtime.RawExtension).
Implicit Types (h : runtime.Heap) (s : S) (log : list client.Call).

(** Applying a list is applying a first part and, when that raised no
    error, the rest from where the first part left the objects and the
    cluster. *)
Lemma Apply_app {T} (q : Processor T) pre post h (t : T) :
  Apply GroupVersionKind q (pre ++ post) h t =
  match Apply GroupVersionKind q pre h t with
  | (Some err, h1, t1) => (Some err, h1, t1)
  | (None, h1, t1) => Apply GroupVersionKind q post h1 t1
  end.
Proof.
  revert h t. induction pre as [|rawObj pre IH]; intros h t; simpl; [done|].
  destruct (runtime.Object_ rawObj) as [obj|]; [|apply IH].
  destruct (createOrUpdateObj (cl q) obj h t) as [[[err|] h1] t1]; [done|apply IH].
Qed.

(** What [Apply] does at one entry that holds an object. *)
Lemma Apply_cons {T} (q : Processor T) rawObj post h (t : T) obj :
  runtime.Object_ rawObj = Some obj ->
  Apply GroupVersionKind q (rawObj :: post) h t =
  match createOrUpdateObj (cl q) obj h t with
  | (Some err, h1, t1) => (Some (applyContext (GroupVersionKind (h obj)) err), h1, t1)
  | (None, h1, t1) => Apply GroupVersionKind q post h1 t1
  end.
Proof.
  intros Hobj. simpl. rewrite Hobj.
  by destruct (createOrUpdateObj (cl q) obj h t) as [[[err|] h1] t1].
Qed.

(** Reaching an entry: the entries before it raised no error. *)
Lemma Apply_reach {T} (q : Processor T) pre rawObj post h (t : T) h1 t1 obj :
  Apply GroupVersionKind q pre h t = (None, h1, t1) ->
  runtime.Object_ rawObj = Some obj ->
  Apply GroupVersionKind q (pre ++ rawObj :: post) h t =
  match createOrUpdateObj (cl q) obj h1 t1 with
  | (Some err, h2, t2) => (Some (applyContext (GroupVersionKind (h1 obj)) err), h2, t2)
  | (None, h2, t2) => Apply GroupVersionKind q post h2 t2
  end.
Proof.
  intros Hpre Hobj. rewrite Apply_app, Hpre. by apply Apply_cons.
Qed.

(** *** One object, request by request *)

Lemma createOrUpdateObj_created (c : client.Client S) obj h s log s1 :
  client.Create c (h obj) s = (None, s1) ->
  createOrUpdateObj (client.recording c) obj h (s, log) =
  (None, h, (s1, log ++ [client.CallCreate (h obj)])).
Proof. intros Hc. unfold createOrUpdateObj. simpl. by rewrite Hc. Qed.

Lemma createOrUpdateObj_create_failed (c : client.Client S) obj h s log e s1 :
  client.Create c (h obj) s = (Some e, s1) ->
  apierrors.IsAlreadyExists e = false ->
  createOrUpdateObj (client.recording c) obj h (s, log) =
  (Some (Wrapf e "failed to create object %v" [ArgV (h obj)]), h,
   (s1, log ++ [client.CallCreate (h obj)])).
Proof. intros Hc He. unfold createOrUpdateObj. simpl. by rewrite Hc, He. Qed.

Lemma createOrUpdateObj_get_failed (c : client.Client S) obj h s log u e s1 e' out s2 :
  h obj = runtime.OUnstructured u ->
  client.Create c (h obj) s = (Some e, s1) ->
  apierrors.IsAlreadyExists e = true ->
  client.Get c (keyOf u) (existingFor u) s1 = (Some e', out, s2) ->
  createOrUpdateObj (client.recording c) obj h (s, log) =
  (Some (Wrapf e'
           "unable to get the resource of kind '%s' and name '%s' in namespace '%s'"
           [ArgS (unstructured.GetKind u); ArgS (unstructured.GetName u);
            ArgS (unstructured.GetNamespace u)]), h,
   (s2, log ++ [client.CallCreate (h obj);
                client.CallGet (keyOf u) (existingFor u)])).
Proof.
  intros Hu Hc He Hg. unfold createOrUpdateObj, keyOf, existingFor in *. simpl.
  rewrite Hc, He. simpl. rewrite Hu. simpl. rewrite Hg. simpl.
  by rewrite <- app_assoc.
Qed.

Lemma createOrUpdateObj_fetched (c : client.Client S) obj h s log u e s1 existing s2 :
  h obj = runtime.OUnstructured u ->
  client.Create c (h obj) s = (Some e, s1) ->
  apierrors.IsAlreadyExists e = true ->
  client.Get c (keyOf u) (existingFor u) s1 = (None, existing, s2) ->
  let u' :=
    unstructured.SetResourceVersion u (unstructured.GetResourceVersion existing) in
  let h' := <[obj := runtime.OUnstructured u']> h in
  let log' := log ++ [client.CallCreate (h obj);
                      client.CallGet (keyOf u) (existingFor u);
                      client.CallUpdate (runtime.OUnstructured u')] in
  createOrUpdateObj (client.recording c) obj h (s, log) =
  match client.Update c (runtime.OUnstructured u') s2 with
  | (Some e', s3) =>
    (Some (Wrapf e'
             "unable to update the resource of kind '%s' and name '%s' in namespace '%s'"
             [ArgS (unstructured.GetKind u); ArgS (unstructured.GetName u);
              ArgS (unstructured.GetNamespace u)]), h', (s3, log'))
  | (None, s3) => (None, h', (s3, log'))
  end.
Proof.
  intros Hu Hc He Hg. unfold createOrUpdateObj, keyOf, existingFor in *. simpl.
  rewrite Hc, He. simpl. rewrite Hu. simpl. rewrite Hg. simpl.
  destruct (client.Update c _ s2) as [[e'|] s3]; simpl;
    by rewrite <- !app_assoc.
Qed.

Lemma createOrUpdateObj_typed (c : client.Client S) obj h s log t e s1 :
  h obj = runtime.OTyped t ->
  client.Create c (h obj) s = (Some e, s1) ->
  apierrors.IsAlreadyExists e = true ->
  let log' := log ++ [client.CallCreate (h obj); client.CallUpdate (h obj)] in
  createOrUpdateObj (client.recording c) obj h (s, log) =
  match client.Update c (h obj) s1 with
  | (Some e', s2) =>
    (Some (Wrapf e' "failed to update object %v" [ArgV (h obj)]), h, (s2, log'))
  | (None, s2) => (None, h, (s2, log'))
  end.
Proof.
  intros Ht Hc He. unfold createOrUpdateObj. simpl.
  rewrite Hc, He. simpl. rewrite Ht. simpl. rewrite <- Ht.
  destruct (client.Update c (h obj) s1) as [[e'|] s2]; simpl;
    by rewrite <- !app_assoc.
Qed.

(** *** Where an error of [Apply] comes from *)



End ApplyFacts.

Section ApplyClaims.
Context {S : Type}.
Context (GroupVersionKind : runtime.Object -> schema.GroupVersionKind).
Implicit Types (p : Processor S) (objs pre post : list runtime.RawExtension).
Implicit Types (h : runtime.Heap) (s : S) (log : list client.Call).


(** C3.  When [Apply] reaches an entry and the [Create] of its object fails
    with an error that is not already-exists, [Apply] returns that error
    under two contexts, the outer one with the kind and version of the
    object; the [Create] is the last request the cluster receives, whatever
    entries follow. *)
Theorem Apply_create_failure_aborts p pre rawObj post h s log h1 s1 log1 obj e s2 :
  Apply GroupVersionKind (recorded p) pre h (s, log) = (None, h1, (s1, log1)) ->
  runtime.Object_ rawObj = Some obj ->
  client.Create (cl p) (h1 obj) s1 = (Some e, s2) ->
  apierrors.IsAlreadyExists e = false ->
  Apply GroupVersionKind (recorded p) (pre ++ rawObj :: post) h (s, log) =
  (Some (Wrapf (Wrapf e "failed to create object %v" [ArgV (h1 obj)])
           "unable to create resource of kind: %s, version: %s"
           [ArgS (schema.Kind (GroupVersionKind (h1 obj)));
            ArgS (schema.Version (GroupVersionKind (h1 obj)))]),
   h1, (s2, log1 ++ [client.CallCreate (h1 obj)])).
Proof.
  intros Hpre Hobj Hc He.
  rewrite (Apply_reach _ _ _ _ _ _ _ _ _ _ Hpre Hobj). simpl cl.
  by rewrite (createOrUpdateObj_create_failed _ _ _ _ _ _ _ Hc He).
Qed.

(** C4.  When [Apply] reaches an entry whose object is not an
    [Unstructured] and the [Create] of it fails with an already-exists error,
    the requests made for this entry are the [Create] and one [Update] of the
    object as it is, and no [Get].  If the [Update] fails [Apply] returns its
    error, under two contexts, and the cluster receives nothing more;
    otherwise [Apply] goes on with the entries that follow. *)
Theorem Apply_existing_typed_updates p pre rawObj post h s log h1 s1 log1 obj t e s2 :
  Apply GroupVersionKind (recorded p) pre h (s, log) = (None, h1, (s1, log1)) ->
  runtime.Object_ rawObj = Some obj ->
  h1 obj = runtime.OTyped t ->
  client.Create (cl p) (runtime.OTyped t) s1 = (Some e, s2) ->
  apierrors.IsAlreadyExists e = true ->
  let log2 :=
    log1 ++ [client.CallCreate (runtime.OTyped t);
             client.CallUpdate (runtime.OTyped t)] in
  Apply GroupVersionKind (recorded p) (pre ++ rawObj :: post) h (s, log) =
  match client.Update (cl p) (runtime.OTyped t) s2 with
  | (Some e', s3) =>
    (Some (Wrapf (Wrapf e' "failed to update object %v" [ArgV (runtime.OTyped t)])
             "unable to create resource of kind: %s, version: %s"
             [ArgS (schema.Kind (GroupVersionKind (runtime.OTyped t)));
              ArgS (schema.Version (GroupVersionKind (runtime.OTyped t)))]),
     h1, (s3, log2))
  | (None, s3) => Apply GroupVersionKind (recorded p) post h1 (s3, log2)
  end.
Proof.
  intros Hpre Hobj Ht Hc He log2.
  rewrite (Apply_reach _ _ _ _ _ _ _ _ _ _ Hpre Hobj). simpl cl.
  rewrite <- Ht in Hc.
  rewrite (createOrUpdateObj_typed _ _ _ _ _ _ _ _ Ht Hc He).
  rewrite Ht. fold log2. cbv zeta.
  by destruct (client.Update (cl p) (runtime.OTyped t) s2) as [[e'|] s3].
Qed.



(** C10.  On the already-exists path of an [Unstructured] [u], once the
    [Get] has succeeded: the [Get] is keyed by the namespace and the name of
    [u] itself; the object sent to [Update] has the kind, apiVersion,
    namespace, name and all other fields of [u], and the resource version
    the [Get] read; behind the pointer now lies that object, and no other
    object has changed. *)
Theorem createOrUpdateObj_touches_resource_version_only
    (c : client.Client S) obj h s log u e s1 existing s2 :
  h obj = runtime.OUnstructured u ->
  client.Create c (runtime.OUnstructured u) s = (Some e, s1) ->
  apierrors.IsAlreadyExists e = true ->
  client.Get c
    {| types.Namespace := unstructured.GetNamespace u;
       types.Name := unstructured.GetName u |}
    (existingFor u) s1 = (None, existing, s2) ->
  exists u' err h' s3,
    createOrUpdateObj (client.recording c) obj h (s, log) =
    (err, h',
     (s3, log ++ [client.CallCreate (runtime.OUnstructured u);
                  client.CallGet
                    {| types.Namespace := unstructured.GetNamespace u;
                       types.Name := unstructured.GetName u |} (existingFor u);
                  client.CallUpdate (runtime.OUnstructured u')])) /\
    unstructured.GetResourceVersion u' = unstructured.GetResourceVersion existing /\
    unstructured.GetKind u' = unstructured.GetKind u /\
    unstructured.GetAPIVersion u' = unstructured.GetAPIVersion u /\
    unstructured.GetNamespace u' = unstructured.GetNamespace u /\
    unstructured.GetName u' = unstructured.GetName u /\
    unstructured.Fields u' = unstructured.Fields u /\
    h' obj = runtime.OUnstructured u' /\
    (forall other, other <> obj -> h' other = h other).
Proof.
  intros Hu Hc He Hg. rewrite <- Hu in Hc.
  pose proof (createOrUpdateObj_fetched c obj h s log u e s1 existing s2 Hu Hc He Hg)
    as Hrun. cbv zeta in Hrun. rewrite Hu in Hrun.
  set (u' := unstructured.SetResourceVersion u
               (unstructured.GetResourceVersion existing)) in *.
  exists u'.
  destruct (client.Update c (runtime.OUnstructured u') s2) as [[e'|] s3];
    eexists _, _, s3; (split; [exact Hrun|]);
    split_and!; try done;
    try apply fn_lookup_insert;
    by intros other Hother; apply fn_lookup_insert_ne.
Qed.

End ApplyClaims.

(** ** Rendering: the loop over the values *)

Section InjectFacts.
Implicit Types (tmpl : templatev1.Template) (values : gmap string string).
Implicit Types (param val name : string) (v : templatev1.Param).

Lemma GetParameterByName_names tmpl name :
  templateprocessing.GetParameterByName tmpl name =
  fst <$> list_find (fun n => n = name) (names tmpl).
Proof.
  unfold templateprocessing.GetParameterByName, names.
  rewrite list_find_fmap, <- option_fmap_compose.
  by destruct (list_find _ _) as [[i v]|].
Qed.

Lemma GetParameterByName_Some tmpl name i :
  templateprocessing.GetParameterByName tmpl name = Some i ->
  exists v, templatev1.Parameters tmpl !! i = Some v /\ templatev1.Name v = name.
Proof.
  unfold templateprocessing.GetParameterByName.
  destruct (list_find _ _) as [[j v]|] eqn:Hfind; [|done].
  intros [= <-]. apply list_find_Some in Hfind as (? & ? & _). by exists v.
Qed.

Lemma GetParameterByName_None tmpl name :
  templateprocessing.GetParameterByName tmpl name = None <->
  name ∉ names tmpl.
Proof.
  unfold templateprocessing.GetParameterByName, names.
  rewrite fmap_None, list_find_None, list_elem_of_fmap, Forall_forall.
  split.
  - intros Hall (v & -> & Hv%list_elem_of_In). by apply (Hall v).
  - intros Hno v Hv%list_elem_of_In Hname. apply Hno. by exists v.
Qed.

Lemma injectValue_names param val tmpl :
  names (injectValue param val tmpl) = names tmpl.
Proof.
  unfold injectValue, names.
  destruct (templateprocessing.GetParameterByName tmpl param) as [i|]; [|done].
  simpl. rewrite (list_fmap_alter _ _ id); [by apply list_alter_id|].
  by apply Forall_true.
Qed.

Lemma GetParameterByName_injectValue param val tmpl name :
  templateprocessing.GetParameterByName (injectValue param val tmpl) name =
  templateprocessing.GetParameterByName tmpl name.
Proof. by rewrite !GetParameterByName_names, injectValue_names. Qed.

(** Two names never lead to the same parameter. *)
Lemma GetParameterByName_inj tmpl name1 name2 i :
  templateprocessing.GetParameterByName tmpl name1 = Some i ->
  templateprocessing.GetParameterByName tmpl name2 = Some i ->
  name1 = name2.
Proof.
  intros (v1 & Hv1 & <-)%GetParameterByName_Some (v2 & Hv2 & <-)%GetParameterByName_Some.
  congruence.
Qed.

(** A turn of the loop leaves alone the parameters other names lead to. *)
Lemma injectValue_lookup_ne param val tmpl name i :
  param <> name ->
  templateprocessing.GetParameterByName tmpl name = Some i ->
  templatev1.Parameters (injectValue param val tmpl) !! i =
  templatev1.Parameters tmpl !! i.
Proof.
  intros Hne Hi. unfold injectValue.
  destruct (templateprocessing.GetParameterByName tmpl param) as [j|] eqn:Hj; [|done].
  simpl. apply list_lookup_alter_ne. intros ->.
  by apply Hne, (GetParameterByName_inj tmpl _ _ i).
Qed.

Lemma injectValue_lookup_eq param val tmpl i v :
  templateprocessing.GetParameterByName tmpl param = Some i ->
  templatev1.Parameters tmpl !! i = Some v ->
  templatev1.Parameters (injectValue param val tmpl) !! i =
  Some (templatev1.setGenerate (templatev1.setValue v val) "").
Proof.
  intros Hi Hv. unfold injectValue. rewrite Hi. simpl.
  by rewrite list_lookup_alter_eq, Hv.
Qed.

Lemma injectValue_absent param val tmpl :
  templateprocessing.GetParameterByName tmpl param = None ->
  injectValue param val tmpl = tmpl.
Proof. intros Hnone. unfold injectValue. by rewrite Hnone. Qed.

(** The turns for two different names can be taken in either order. *)
Lemma injectValue_comm param1 val1 param2 val2 tmpl :
  param1 <> param2 ->
  injectValue param1 val1 (injectValue param2 val2 tmpl) =
  injectValue param2 val2 (injectValue param1 val1 tmpl).
Proof.
  intros Hne. unfold injectValue at 1 3.
  rewrite !GetParameterByName_injectValue. unfold injectValue.
  destruct (templateprocessing.GetParameterByName tmpl param1) as [i1|] eqn:H1,
           (templateprocessing.GetParameterByName tmpl param2) as [i2|] eqn:H2;
    try done.
  unfold templatev1.setParameters. simpl. f_equal.
  apply list_alter_alter_ne. intros ->.
  by apply Hne, (GetParameterByName_inj tmpl _ _ i2).
Qed.

Lemma injectValues_names tmpl values :
  names (map_fold injectValue tmpl values) = names tmpl.
Proof.
  apply (map_fold_weak_ind (fun r _ => names r = names tmpl)); [done|].
  intros param val m r _ IH. by rewrite injectValue_names.
Qed.

Lemma GetParameterByName_injectValues tmpl values name :
  templateprocessing.GetParameterByName (map_fold injectValue tmpl values) name =
  templateprocessing.GetParameterByName tmpl name.
Proof. by rewrite !GetParameterByName_names, injectValues_names. Qed.

(** A parameter whose name is not among the values goes through the loop
    unchanged. *)
Lemma injectValues_lookup_None tmpl values name i :
  values !! name = None ->
  templateprocessing.GetParameterByName tmpl name = Some i ->
  templatev1.Parameters (map_fold injectValue tmpl values) !! i =
  templatev1.Parameters tmpl !! i.
Proof.
  intros Hnone Hi.
  enough (values !! name = None ->
          names (map_fold injectValue tmpl values) = names tmpl /\
          templatev1.Parameters (map_fold injectValue tmpl values) !! i =
          templatev1.Parameters tmpl !! i) as Hfold by (by apply Hfold).
  apply (map_fold_weak_ind (fun r m =>
    m !! name = None ->
    names r = names tmpl /\
    templatev1.Parameters r !! i = templatev1.Parameters tmpl !! i)); [done|].
  intros param val m r _ IH Hins.
  apply lookup_insert_None in Hins as [Hm Hne].
  destruct (IH Hm) as [Hnames Hr]. split.
  - by rewrite injectValue_names.
  - rewrite <- Hr. apply (injectValue_lookup_ne _ _ _ name); [done|].
    by rewrite GetParameterByName_names, Hnames, <- GetParameterByName_names.
Qed.

(** The loop, with the turn for one of its names taken last. *)
Lemma injectValues_delete tmpl values param val :
  values !! param = Some val ->
  map_fold injectValue tmpl values =
  injectValue param val (map_fold injectValue tmpl (delete param values)).
Proof.
  intros Hval. apply map_fold_delete_L; [|done].
  intros j1 j2 z1 z2 y Hne _ _. by apply injectValue_comm.
Qed.

Lemma foldl_injectValue_rev tmpl (visited : list (string * string)) :
  foldl (fun tmpl entry => injectValue entry.1 entry.2 tmpl) tmpl visited =
  foldr (uncurry injectValue) tmpl (rev visited).
Proof.
  revert tmpl. induction visited as [|[param val] visited IH]; intros tmpl; [done|].
  simpl. by rewrite IH, foldr_app.
Qed.

(** Go visits the entries of a map in an order of its own choosing; the
    outcome of the loop is the same for every order. *)
Lemma injectValues_any_order tmpl values (visited : list (string * string)) :
  visited ≡ₚ map_to_list values ->
  foldl (fun tmpl entry => injectValue entry.1 entry.2 tmpl) tmpl visited =
  map_fold injectValue tmpl values.
Proof.
  intros Hperm. rewrite map_fold_foldr, foldl_injectValue_rev.
  assert (rev visited ≡ₚ map_to_list values) as Hrev
    by (by rewrite <- Permutation_rev).
  apply (foldr_permutation (=)); [solve_proper| |done].
  intros j1 [k1 v1] j2 [k2 v2] r Hj H1 H2. simpl.
  apply injectValue_comm. intros ->. apply Hj.
  assert (NoDup (rev visited).*1) as Hnodup.
  { rewrite Hrev. apply NoDup_fst_map_to_list. }
  eapply NoDup_lookup; [exact Hnodup| |];
    rewrite list_lookup_fmap; [by rewrite H1|by rewrite H2].
Qed.

(** *** The loop, parameter by parameter *)

Lemma overridden_names tmpl values : names (overridden tmpl values) = names tmpl.
Proof.
  unfold names, overridden. simpl. apply list_eq. intros i.
  rewrite !list_lookup_fmap, list_lookup_imap.
  destruct (templatev1.Parameters tmpl !! i) as [v|]; [|done]. simpl.
  destruct (values !! templatev1.Name v); [|done]. by case_decide.
Qed.

Lemma overridden_insert tmpl values param val :
  values !! param = None ->
  injectValue param val (overridden tmpl values) =
  overridden tmpl (<[param := val]> values).
Proof.
  intros Hnone. unfold injectValue.
  rewrite GetParameterByName_names, overridden_names, <- GetParameterByName_names.
  destruct (templateprocessing.GetParameterByName tmpl param) as [j|] eqn:Hj.
  - destruct (GetParameterByName_Some _ _ _ Hj) as (w & Hw & Hname).
    unfold overridden, templatev1.setParameters. simpl. f_equal.
    apply list_eq. intros i. rewrite list_lookup_imap.
    destruct (decide (j = i)) as [<-|Hne].
    + rewrite list_lookup_alter_eq, list_lookup_imap, Hw. simpl.
      rewrite Hname, Hnone, lookup_insert_eq. by rewrite decide_True.
    + rewrite list_lookup_alter_ne, list_lookup_imap by done.
      destruct (templatev1.Parameters tmpl !! i) as [v|]; [|done]. simpl. f_equal.
      destruct (decide (templatev1.Name v = param)) as [->|Hother].
      * rewrite Hnone, lookup_insert_eq. rewrite decide_False; [done|congruence].
      * by rewrite lookup_insert_ne.
  - apply GetParameterByName_None in Hj.
    unfold overridden. f_equal. apply list_eq. intros i.
    rewrite !list_lookup_imap.
    destruct (templatev1.Parameters tmpl !! i) as [v|] eqn:Hv; [|done]. simpl.
    rewrite lookup_insert_ne; [done|]. intros ->. apply Hj.
    unfold names. apply list_elem_of_fmap. exists v.
    split; [done|by eapply list_elem_of_lookup_2].
Qed.

(** The loop over the values leaves the template with the values in
    place, parameter by parameter. *)
Lemma injectValues_overridden tmpl values :
  map_fold injectValue tmpl values = overridden tmpl values.
Proof.
  apply (map_fold_weak_ind (fun r m => r = overridden tmpl m)).
  - unfold overridden. destruct tmpl as [message objects params labels].
    unfold templatev1.setParameters. simpl. f_equal.
    apply list_eq. intros i. rewrite list_lookup_imap.
    by destruct (params !! i).
  - intros param val m r Hnone ->. by apply overridden_insert.
Qed.

End InjectFacts.

(** ** Rendering: the engine and the random source *)

Section EngineFacts.
Context {Rand : Type}.
Context (SubstituteParameters :
           templatev1.Template -> templatev1.Template * list field.Error).
Implicit Types (p : @templateprocessing.Processor Rand).

(** Without generator directives the first pass never draws from the
    random source: it hands it back as it got it, and what it computes does
    not depend on it. *)
Lemma GenerateParameterValues_no_directive p params :
  Forall (fun v => templatev1.Generate v = "") params ->
  forall i, exists params' errs,
    forall r, templateprocessing.GenerateParameterValues p i params r =
              (params', errs, r).
Proof.
  induction 1 as [|param params Hparam _ IH]; intros i; simpl.
  { by exists [], []. }
  destruct (IH (Datatypes.S i)) as (params' & errs' & Hrest).
  rewrite Hparam. simpl.
  destruct (bool_decide (templatev1.Value param = "")); simpl;
    eexists _, _; intros r; by rewrite Hrest.
Qed.

Lemma Process_no_directive p tmpl r1 r2 :
  Forall (fun v => templatev1.Generate v = "") (templatev1.Parameters tmpl) ->
  templateprocessing.Process SubstituteParameters p tmpl r1 =
  templateprocessing.Process SubstituteParameters p tmpl r2.
Proof.
  intros Hall. unfold templateprocessing.Process.
  destruct (GenerateParameterValues_no_directive p _ Hall 0)
    as (params' & errs & Hrun).
  by rewrite !Hrun.
Qed.

End EngineFacts.

(** ** Rendering: the claims *)

Section ProcessClaims.
Context {S Rand : Type}.
Context (NewSource : Z -> Rand).
Context (NewExpressionValueGenerator : @templateprocessing.Generator Rand).
Context (SubstituteParameters :
           templatev1.Template -> templatev1.Template * list field.Error).
Implicit Types (p : Processor S) (tmpl : templatev1.Template).
Implicit Types (values : gmap string string) (filters : list FilterFunc).

Local Abbreviation expand tmpl now :=
  (templateprocessing.Process SubstituteParameters
     (templateprocessing.NewProcessor
        {[ "expression" := NewExpressionValueGenerator ]})
     tmpl (NewSource now)).

(** [Process] is the loop over the values, the engine, the conversion and
    the filters, one after the other. *)
Lemma Process_stages p now tmpl values filters :
  Process NewSource NewExpressionValueGenerator SubstituteParameters
    p now tmpl values filters =
  let expanded := expand (map_fold injectValue tmpl values) now in
  (expanded.1,
   match expanded.2 with
   | _ :: _ => ([], Some (Wrap (Aggregate expanded.2) "unable to process template"))
   | [] =>
     match Convert (scheme p) expanded.1 with
     | (Some err, _) =>
       ([], Some (Wrap err "failed to convert template to external template object"))
     | (None, result) => (Filter (templatev1.Objects result) filters, None)
     end
   end).
Proof.
  unfold Process. cbv zeta.
  destruct (templateprocessing.Process _ _ _ _) as [expanded [|err errs]]; [|done].
  simpl. by destruct (Convert (scheme p) expanded) as [[err|] result].
Qed.

Local Abbreviation Process :=
  (Process NewSource NewExpressionValueGenerator SubstituteParameters).

(** C2.  For an entry [param := val] of the values.  If the template has a
    parameter of that name, the one the lookup by name leads to has, when the
    loop is over, the value [val] and no generator directive, and is
    otherwise as it was; it is still the one the name leads to.  If the
    template has no parameter of that name, the entry changes nothing:
    the loop raises no error (it cannot), and the template after the loop,
    and with it all of what [Process] does and returns, is what it would be
    without the entry. *)
Theorem Process_overrides p now tmpl values filters param val :
  values !! param = Some val ->
  let tmpl' := map_fold injectValue tmpl values in
  (forall i v,
      templateprocessing.GetParameterByName tmpl param = Some i ->
      templatev1.Parameters tmpl !! i = Some v ->
      templateprocessing.GetParameterByName tmpl' param = Some i /\
      templatev1.Parameters tmpl' !! i =
      Some {| templatev1.Name := templatev1.Name v;
              templatev1.DisplayName := templatev1.DisplayName v;
              templatev1.Description := templatev1.Description v;
              templatev1.Value := val;
              templatev1.Generate := "";
              templatev1.From := templatev1.From v;
              templatev1.Required := templatev1.Required v |}) /\
  (templateprocessing.GetParameterByName tmpl param = None ->
      templateprocessing.GetParameterByName tmpl' param = None /\
      tmpl' = map_fold injectValue tmpl (delete param values) /\
      Process p now tmpl values filters =
      Process p now tmpl (delete param values) filters).
Proof.
  intros Hval tmpl'. subst tmpl'. split.
  - intros i v Hi Hv. split; [by rewrite GetParameterByName_injectValues|].
    rewrite (injectValues_delete _ _ _ _ Hval).
    apply injectValue_lookup_eq.
    + by rewrite GetParameterByName_injectValues.
    + rewrite <- Hv. apply (injectValues_lookup_None _ _ param); [|done].
      apply lookup_delete_eq.
  - intros Hnone.
    assert (map_fold injectValue tmpl values =
            map_fold injectValue tmpl (delete param values)) as Hsame.
    { rewrite (injectValues_delete _ _ _ _ Hval). apply injectValue_absent.
      by rewrite GetParameterByName_injectValues. }
    split_and!; [by rewrite GetParameterByName_injectValues|done|].
    by rewrite !Process_stages, Hsame.
Qed.

(** C5 (amended).  Let the engine leave the template as [expanded] and
    report [errs].  If [errs] is not empty, [Process] returns no objects and
    the aggregate of [errs] under the context "unable to process template".
    If it is empty and the conversion of [expanded] fails, [Process] returns
    no objects and the error of the conversion under a context of its own.
    If it is empty and the conversion succeeds, [Process] returns the objects
    of the converted template, filtered, and no error. *)
Theorem Process_outcome p now tmpl values filters expanded errs :
  expand (map_fold injectValue tmpl values) now = (expanded, errs) ->
  (errs <> [] ->
   (Process p now tmpl values filters).2 =
   ([], Some (Wrap (Aggregate errs) "unable to process template"))) /\
  (errs = [] -> forall err result,
   Convert (scheme p) expanded = (Some err, result) ->
   (Process p now tmpl values filters).2 =
   ([], Some (Wrap err "failed to convert template to external template object"))) /\
  (errs = [] -> forall result,
   Convert (scheme p) expanded = (None, result) ->
   (Process p now tmpl values filters).2 =
   (Filter (templatev1.Objects result) filters, None)).
Proof.
  intros Hexp. rewrite Process_stages, Hexp. simpl. split_and!.
  - by destruct errs.
  - intros -> err result Hconv. by rewrite Hconv.
  - intros -> result Hconv. by rewrite Hconv.
Qed.

(** C8.  If no parameter has a generator directive once the values are in
    place, [Process] does and returns the same whatever the clock reads. *)
Theorem Process_deterministic p now1 now2 tmpl values filters :
  Forall (fun v => templatev1.Generate v = "")
         (templatev1.Parameters (map_fold injectValue tmpl values)) ->
  Process p now1 tmpl values filters = Process p now2 tmpl values filters.
Proof.
  intros Hall. rewrite !Process_stages.
  by rewrite (Process_no_directive _ _ _ (NewSource now1) (NewSource now2) Hall).
Qed.

(** C9.  The template the caller passed is, when [Process] returns, with or
    without an error, what the engine has made of that template with the
    values in place: first every parameter that the name of a value leads to
    has got that value and lost its generator directive, all the rest being
    what the caller passed, and then the engine has worked on the outcome.
    The conversion writes to a template of its own: which scheme converts
    makes no difference to the caller's template. *)
Theorem Process_template_in_place p now tmpl values filters :
  (Process p now tmpl values filters).1 =
  (expand (overridden tmpl values) now).1 /\
  forall scheme',
    (Process (NewProcessor (cl p) scheme') now tmpl values filters).1 =
    (Process p now tmpl values filters).1.
Proof.
  split; [|intros scheme']; rewrite !Process_stages; [|done].
  by rewrite injectValues_overridden.
Qed.

End ProcessClaims.

(** ** Filtering *)

Section FilterClaims.
Implicit Types (objs : list runtime.RawExtension) (filters : list FilterFunc).

(** The filters one after the other keep what one pass with all of them
    keeps. *)
Lemma Filter_all objs filters :
  Filter objs filters =
  List.filter (fun obj => forallb (fun filter : FilterFunc => filter obj) filters) objs.
Proof.
  revert objs. induction filters as [|filter filters IH]; intros objs; simpl.
  - induction objs as [|obj objs IHobjs]; simpl; [done|]. by rewrite <- IHobjs.
  - rewrite IH. induction objs as [|obj objs IHobjs]; simpl; [done|].
    destruct (filter obj); simpl; by rewrite IHobjs.
Qed.

Lemma Filter_app objs filters1 filters2 :
  Filter objs (filters1 ++ filters2) = Filter (Filter objs filters1) filters2.
Proof.
  revert objs. induction filters1 as [|filter filters1 IH]; intros objs; simpl;
    [done|apply IH].
Qed.

Lemma filter_sublist (keep : FilterFunc) objs : sublist (List.filter keep objs) objs.
Proof.
  induction objs as [|obj objs IH]; simpl; [done|].
  destruct (keep obj); by constructor.
Qed.

(** C6.  An object is in the filtered list if and only if it is in the
    list and every filter accepts it; without filters the list is returned
    as it is; the filtered list is the list with some objects left out, the
    others in their order; filtering with [[A; B]] is filtering with [A] and
    then filtering the outcome with [B]. *)
Theorem Filter_retains objs filters :
  (forall obj,
      obj ∈ Filter objs filters <->
      obj ∈ objs /\ forall filter : FilterFunc, filter ∈ filters -> filter obj = true) /\
  Filter objs [] = objs /\
  sublist (Filter objs filters) objs /\
  forall A B : FilterFunc, Filter objs [A; B] = Filter (Filter objs [A]) [B].
Proof.
  split_and!.
  - intros obj. rewrite Filter_all, !list_elem_of_In, filter_In, forallb_forall.
    by setoid_rewrite list_elem_of_In.
  - done.
  - rewrite Filter_all. apply filter_sublist.
  - intros A B. apply (Filter_app objs [A] [B]).
Qed.

End FilterClaims.

(** ** Applying objects: further properties *)

Section ApplyMore.
Context {S : Type}.
Context (GroupVersionKind : runtime.Object -> schema.GroupVersionKind).
Implicit Types (p : Processor S) (objs pre post : list runtime.RawExtension).
Implicit Types (h : runtime.Heap) (s : S) (log : list client.Call).

(** X1.  Entries without an object are passed over: applying a list is
    applying its entries that hold an object, and so an entry without an
    object gives rise to no request, no error and no change. *)
Theorem Apply_skips_nil {T} (q : Processor T) objs h (t : T) :
  Apply GroupVersionKind q objs h t = Apply GroupVersionKind q (holding objs) h t.
Proof.
  revert h t. induction objs as [|rawObj objs IH]; intros h t; [done|].
  unfold holding. simpl. destruct (runtime.Object_ rawObj) as [obj|] eqn:Hobj.
  - rewrite bool_decide_eq_true_2 by done. simpl. rewrite Hobj.
    destruct (createOrUpdateObj (cl q) obj h t) as [[[err|] h1] t1]; [done|apply IH].
  - rewrite bool_decide_eq_false_2 by (by intros [? ?]). apply IH.
Qed.

(** X2.  When [Apply] reaches an entry and the [Create] of its object
    succeeds, that [Create] is the only request made for the entry, no [Get]
    and no [Update], and [Apply] goes on with the entries that follow, from
    the cluster as the [Create] left it. *)
Theorem Apply_created p pre rawObj post h s log h1 s1 log1 obj s2 :
  Apply GroupVersionKind (recorded p) pre h (s, log) = (None, h1, (s1, log1)) ->
  runtime.Object_ rawObj = Some obj ->
  client.Create (cl p) (h1 obj) s1 = (None, s2) ->
  (Apply GroupVersionKind (recorded p) (pre ++ [rawObj]) h (s, log)).1.1 = None /\
  (Apply GroupVersionKind (recorded p) (pre ++ [rawObj]) h (s, log)).2 =
  (s2, log1 ++ [client.CallCreate (h1 obj)]) /\
  exists h2,
    Apply GroupVersionKind (recorded p) (pre ++ rawObj :: post) h (s, log) =
    Apply GroupVersionKind (recorded p) post h2
      (s2, log1 ++ [client.CallCreate (h1 obj)]).
Proof.
  intros Hpre Hobj Hc.
  rewrite !(Apply_reach _ _ _ _ _ _ _ _ _ _ Hpre Hobj). simpl cl.
  rewrite (createOrUpdateObj_created _ _ _ _ _ _ Hc). simpl.
  split_and!; [done..|]. by exists h1.
Qed.

(** X3.  Applying a list in two batches.  If the first batch ends in an
    error, the whole list ends in that error, with the objects and the
    cluster as the first batch left them: the second batch is not touched.
    If the first batch goes through, the whole list is the second batch
    applied to the objects and the cluster as the first batch left them. *)
Theorem Apply_batches {T} (q : Processor T) objs1 objs2 h (t : T) :
  (forall err h1 t1,
      Apply GroupVersionKind q objs1 h t = (Some err, h1, t1) ->
      Apply GroupVersionKind q (objs1 ++ objs2) h t = (Some err, h1, t1)) /\
  (forall h1 t1,
      Apply GroupVersionKind q objs1 h t = (None, h1, t1) ->
      Apply GroupVersionKind q (objs1 ++ objs2) h t =
      Apply GroupVersionKind q objs2 h1 t1).
Proof.
  split; [intros err h1 t1 Hfirst|intros h1 t1 Hfirst];
    by rewrite Apply_app, Hfirst.
Qed.

(** X4.  When [Apply] reaches an entry whose object is an [Unstructured],
    the [Create] of it fails with an already-exists error and the [Get] that
    follows fails, [Apply] returns the error of the [Get] under two contexts,
    the inner one with the kind, the name and the namespace of the object;
    the object is left as it is, and the [Get] is the last request the
    cluster receives: there is no [Update], whatever entries follow. *)
Theorem Apply_get_failure_aborts p pre rawObj post h s log
    h1 s1 log1 obj u e s2 e' out s3 :
  Apply GroupVersionKind (recorded p) pre h (s, log) = (None, h1, (s1, log1)) ->
  runtime.Object_ rawObj = Some obj ->
  h1 obj = runtime.OUnstructured u ->
  client.Create (cl p) (runtime.OUnstructured u) s1 = (Some e, s2) ->
  apierrors.IsAlreadyExists e = true ->
  client.Get (cl p)
    {| types.Namespace := unstructured.GetNamespace u;
       types.Name := unstructured.GetName u |}
    (existingFor u) s2 = (Some e', out, s3) ->
  Apply GroupVersionKind (recorded p) (pre ++ rawObj :: post) h (s, log) =
  (Some (Wrapf
           (Wrapf e'
              "unable to get the resource of kind '%s' and name '%s' in namespace '%s'"
              [ArgS (unstructured.GetKind u); ArgS (unstructured.GetName u);
               ArgS (unstructured.GetNamespace u)])
           "unable to create resource of kind: %s, version: %s"
           [ArgS (schema.Kind (GroupVersionKind (runtime.OUnstructured u)));
            ArgS (schema.Version (GroupVersionKind (runtime.OUnstructured u)))]),
   h1,
   (s3, log1 ++ [client.CallCreate (runtime.OUnstructured u);
                 client.CallGet
                   {| types.Namespace := unstructured.GetNamespace u;
                      types.Name := unstructured.GetName u |} (existingFor u)])).
Proof.
  intros Hpre Hobj Hu Hc He Hg.
  rewrite (Apply_reach _ _ _ _ _ _ _ _ _ _ Hpre Hobj). simpl cl.
  rewrite <- Hu in Hc.
  rewrite (createOrUpdateObj_get_failed _ _ _ _ _ _ _ _ _ _ _ Hu Hc He Hg).
  by rewrite Hu.
Qed.

(** *** The requests [Apply] makes *)

Lemma createOrUpdateObj_calls (c : client.Client S) obj h s log :
  exists calls,
    (createOrUpdateObj (client.recording c) obj h (s, log)).2.2 = log ++ calls /\
    entryCalls (h obj) calls.
Proof.
  unfold createOrUpdateObj. simpl.
  destruct (client.Create c (h obj) s) as [[e|] s1]; simpl.
  2:{ eexists. split; [done|constructor]. }
  destruct (apierrors.IsAlreadyExists e); simpl.
  2:{ eexists. split; [done|constructor]. }
  destruct (h obj) as [u|ty] eqn:Hu.
  - fold (keyOf u). fold (existingFor u).
    destruct (client.Get c (keyOf u) (existingFor u) s1)
      as [[[e'|] existing] s2]; simpl.
    + eexists. split; [by rewrite <- app_assoc|constructor].
    + destruct (client.Update c _ s2) as [[e'|] s3]; simpl;
        (eexists; split; [by rewrite <- !app_assoc|constructor]).
  - destruct (client.Update c _ s1) as [[e'|] s2]; simpl;
      (eexists; split; [by rewrite <- !app_assoc|constructor]).
Qed.

(** The requests already made stay in front of those [Apply] adds. *)
Lemma Apply_calls_extend p objs h s log :
  exists rest,
    (Apply GroupVersionKind (recorded p) objs h (s, log)).2.2 = log ++ rest.
Proof.
  revert h s log. induction objs as [|rawObj objs IH]; intros h s log; simpl.
  { exists []. by rewrite app_nil_r. }
  destruct (runtime.Object_ rawObj) as [obj|]; [|apply IH].
  destruct (createOrUpdateObj_calls (cl p) obj h s log) as (calls & Hlog & _).
  destruct (createOrUpdateObj (client.recording (cl p)) obj h (s, log))
    as [[[err|] h1] [s1 log1]]; simpl in *; subst log1.
  - by exists calls.
  - destruct (IH h1 s1 (log ++ calls)) as (rest & ->).
    exists (calls ++ rest). by rewrite app_assoc.
Qed.

(** X6.  The requests [Apply] makes come entry by entry, in the order of
    the list.  When [Apply] reaches an entry with an object, the requests for
    that entry come right after those made for the entries before it, and are
    one group for the object as it is then: its [Create]; or, for an
    [Unstructured], its [Create] and the [Get] for it; or these two and its
    [Update] under some resource version; or, for an object that is not an
    [Unstructured], its [Create] and its [Update].  So they are at most
    three, an [Update] only ever follows the [Create] of the same object, and
    a [Get] is only ever made for an [Unstructured].  The requests for the
    entries that follow come after the group, and there are none when the
    entry ends in an error. *)
Theorem Apply_calls p pre rawObj post h s log h1 s1 log1 obj :
  Apply GroupVersionKind (recorded p) pre h (s, log) = (None, h1, (s1, log1)) ->
  runtime.Object_ rawObj = Some obj ->
  exists calls rest,
    entryCalls (h1 obj) calls /\
    length calls <= 3 /\
    (Apply GroupVersionKind (recorded p) (pre ++ [rawObj]) h (s, log)).2.2 =
    log1 ++ calls /\
    (Apply GroupVersionKind (recorded p) (pre ++ rawObj :: post) h (s, log)).2.2 =
    log1 ++ calls ++ rest /\
    ((Apply GroupVersionKind (recorded p) (pre ++ [rawObj]) h (s, log)).1.1 <> None ->
     rest = []).
Proof.
  intros Hpre Hobj.
  rewrite !(Apply_reach _ _ _ _ _ _ _ _ _ _ Hpre Hobj). simpl cl.
  destruct (createOrUpdateObj_calls (cl p) obj h1 s1 log1) as (calls & Hlog & Hcalls).
  destruct (createOrUpdateObj (client.recording (cl p)) obj h1 (s1, log1))
    as [[[err|] h2] [s2 log2]]; simpl in *; subst log2.
  - exists calls, []. rewrite app_nil_r.
    split_and!; try done. destruct Hcalls; simpl; lia.
  - destruct (Apply_calls_extend p post h2 s2 (log1 ++ calls)) as (rest & Hrest).
    exists calls, rest. rewrite Hrest, <- app_assoc.
    split_and!; try done. destruct Hcalls; simpl; lia.
Qed.

End ApplyMore.

(** ** Rendering: further properties *)

Section ProcessMore.
Context {S Rand : Type}.
Context (NewSource : Z -> Rand).
Context (NewExpressionValueGenerator : @templateprocessing.Generator Rand).
Context (SubstituteParameters :
           templatev1.Template -> templatev1.Template * list field.Error).
Implicit Types (p : Processor S) (tmpl : templatev1.Template).
Implicit Types (values first second : gmap string string).
Implicit Types (filters : list FilterFunc).

Local Abbreviation Process :=
  (Process NewSource NewExpressionValueGenerator SubstituteParameters).
Local Abbreviation expand tmpl now :=
  (templateprocessing.Process SubstituteParameters
     (templateprocessing.NewProcessor
        {[ "expression" := NewExpressionValueGenerator ]})
     tmpl (NewSource now)).

(** X7.  [Process] never returns objects together with an error.  An error
    is the aggregate of the engine's errors or the error of the conversion,
    under one context without arguments.  Without an error the conversion
    has succeeded, and the objects returned are objects of the converted
    template, in their order. *)
Theorem Process_error_or_objects p now tmpl values filters :
  match (Process p now tmpl values filters).2 with
  | (objs, Some err) =>
    objs = [] /\
    ((expand (map_fold injectValue tmpl values) now).2 <> [] /\
     err = Wrapf (Aggregate (expand (map_fold injectValue tmpl values) now).2)
             "unable to process template" [] \/
     exists cause result,
       Convert (scheme p) (expand (map_fold injectValue tmpl values) now).1 =
       (Some cause, result) /\
       err = Wrapf cause "failed to convert template to external template object" [])
  | (objs, None) =>
    exists result,
      Convert (scheme p) (expand (map_fold injectValue tmpl values) now).1 =
      (None, result) /\
      sublist objs (templatev1.Objects result)
  end.
Proof.
  rewrite Process_stages. cbv zeta. simpl.
  destruct (expand (map_fold injectValue tmpl values) now) as [expanded [|e errs]];
    simpl.
  - destruct (Convert (scheme p) expanded) as [[cause|] result] eqn:Hconv.
    + split; [done|]. right. by exists cause, result.
    + exists result. split; [done|].
      rewrite Filter_all. apply filter_sublist.
  - split; [done|]. by left.
Qed.

(** *** The loop over the values *)

(** X8.  The loop over the values changes nothing of the template but
    values and generator directives of parameters: the message, the objects
    and the labels stay, and so do the number of the parameters, their order
    and, for each of them, its name, display name, description, generator
    input and required flag.  A parameter stays as it is altogether when its
    name is not among the values, and also when it is not the first
    parameter of its name. *)
Theorem injectValues_frame tmpl values :
  let tmpl' := map_fold injectValue tmpl values in
  templatev1.Message tmpl' = templatev1.Message tmpl /\
  templatev1.Objects tmpl' = templatev1.Objects tmpl /\
  templatev1.ObjectLabels tmpl' = templatev1.ObjectLabels tmpl /\
  length (templatev1.Parameters tmpl') = length (templatev1.Parameters tmpl) /\
  forall i v,
    templatev1.Parameters tmpl !! i = Some v ->
    exists v',
      templatev1.Parameters tmpl' !! i = Some v' /\
      templatev1.Name v' = templatev1.Name v /\
      templatev1.DisplayName v' = templatev1.DisplayName v /\
      templatev1.Description v' = templatev1.Description v /\
      templatev1.From v' = templatev1.From v /\
      templatev1.Required v' = templatev1.Required v /\
      (values !! templatev1.Name v = None \/
       templateprocessing.GetParameterByName tmpl (templatev1.Name v) <> Some i ->
       v' = v).
Proof.
  cbv zeta.
  apply (map_fold_weak_ind (fun r (m : gmap string string) =>
    templatev1.Message r = templatev1.Message tmpl /\
    templatev1.Objects r = templatev1.Objects tmpl /\
    templatev1.ObjectLabels r = templatev1.ObjectLabels tmpl /\
    length (templatev1.Parameters r) = length (templatev1.Parameters tmpl) /\
    forall i v,
      templatev1.Parameters tmpl !! i = Some v ->
      exists v',
        templatev1.Parameters r !! i = Some v' /\
        templatev1.Name v' = templatev1.Name v /\
        templatev1.DisplayName v' = templatev1.DisplayName v /\
        templatev1.Description v' = templatev1.Description v /\
        templatev1.From v' = templatev1.From v /\
        templatev1.Required v' = templatev1.Required v /\
        (m !! templatev1.Name v = None \/
         templateprocessing.GetParameterByName tmpl (templatev1.Name v) <> Some i ->
         v' = v))).
  { split_and!; try done. intros i v Hv. by exists v. }
  intros param val m r Hm (Hmsg & Hobjs & Hlabels & Hlen & Hparams).
  assert (names r = names tmpl) as Hnames.
  { apply list_eq. intros i. unfold names. rewrite !list_lookup_fmap.
    destruct (templatev1.Parameters tmpl !! i) as [v|] eqn:Hv.
    - destruct (Hparams i v Hv) as (v' & Hv' & Hname & _).
      rewrite Hv'. simpl. by rewrite Hname.
    - apply lookup_ge_None in Hv. rewrite <- Hlen in Hv.
      apply lookup_ge_None in Hv. by rewrite Hv. }
  unfold injectValue.
  destruct (templateprocessing.GetParameterByName r param) as [j|] eqn:Hj;
    [|split_and!; try done; intros i v Hv;
      destruct (Hparams i v Hv) as (v' & ? & ? & ? & ? & ? & ? & Hsame);
      exists v'; split_and!; try done;
      intros [[? _]%lookup_insert_None|?]; apply Hsame; auto].
  simpl. split_and!; try done.
  { by rewrite length_alter. }
  intros i v Hv.
  destruct (Hparams i v Hv) as (v' & Hv' & Hname & ? & ? & ? & ? & Hsame).
  destruct (decide (j = i)) as [->|Hne].
  - eexists. rewrite list_lookup_alter_eq, Hv'. simpl.
    split_and!; try done.
    assert (templatev1.Name v = param) as <-.
    { apply GetParameterByName_Some in Hj as (w & Hw & <-). congruence. }
    intros [Hnone|Hnot].
    + by rewrite lookup_insert_eq in Hnone.
    + exfalso. apply Hnot.
      by rewrite GetParameterByName_names, <- Hnames, <- GetParameterByName_names.
  - exists v'. rewrite list_lookup_alter_ne by done.
    split_and!; try done.
    intros [[? _]%lookup_insert_None|?]; apply Hsame; auto.
Qed.

(** X9.  Go visits the entries of a map in an order of its own choosing,
    and not the same one every time: whichever two orders the entries of the
    values are visited in, the loop leaves the same template. *)
Theorem injectValues_any_two_orders tmpl values
    (visited1 visited2 : list (string * string)) :
  visited1 ≡ₚ map_to_list values ->
  visited2 ≡ₚ map_to_list values ->
  foldl (fun tmpl entry => injectValue entry.1 entry.2 tmpl) tmpl visited1 =
  foldl (fun tmpl entry => injectValue entry.1 entry.2 tmpl) tmpl visited2.
Proof.
  intros Hone Htwo.
  by rewrite (injectValues_any_order _ _ _ Hone), (injectValues_any_order _ _ _ Htwo).
Qed.

(** A later value for a name replaces an earlier one. *)
Lemma injectValue_absorb param val val' tmpl :
  injectValue param val (injectValue param val' tmpl) = injectValue param val tmpl.
Proof.
  unfold injectValue at 1. rewrite GetParameterByName_injectValue.
  unfold injectValue.
  destruct (templateprocessing.GetParameterByName tmpl param) as [i|]; [|done].
  unfold templatev1.setParameters. simpl. f_equal.
  rewrite list_alter_alter_eq. by apply list_alter_ext.
Qed.

(** The loop over a map with one more entry, or one entry replaced, is the
    loop over the map and then the turn for that entry. *)
Lemma injectValues_insert tmpl values param val :
  map_fold injectValue tmpl (<[param := val]> values) =
  injectValue param val (map_fold injectValue tmpl values).
Proof.
  destruct (values !! param) as [val'|] eqn:Hparam.
  - rewrite <- insert_delete_eq.
    rewrite (injectValues_delete tmpl values param val' Hparam), injectValue_absorb.
    apply map_fold_insert_L; [|apply lookup_delete_eq].
    intros j1 j2 z1 z2 y Hne _ _. by apply injectValue_comm.
  - apply map_fold_insert_L; [|done].
    intros j1 j2 z1 z2 y Hne _ _. by apply injectValue_comm.
Qed.

(** X10.  Running the loop with a first map of values and then with a
    second one is running it once with both, the second winning where a name
    is in both; in particular running it twice with the same values is
    running it once. *)
Theorem injectValues_union tmpl first second :
  map_fold injectValue (map_fold injectValue tmpl first) second =
  map_fold injectValue tmpl (second ∪ first) /\
  map_fold injectValue (map_fold injectValue tmpl first) first =
  map_fold injectValue tmpl first.
Proof.
  assert (forall second,
    map_fold injectValue (map_fold injectValue tmpl first) second =
    map_fold injectValue tmpl (second ∪ first)) as Hunion.
  { clear second. intros second.
    induction second as [|param val second Hnone IH] using map_ind.
    - by rewrite map_fold_empty, (left_id_L ∅ (∪)).
    - by rewrite <- insert_union_l, !injectValues_insert, IH. }
  split; [apply Hunion|].
  by rewrite Hunion, (idemp_L (∪)).
Qed.

End ProcessMore.

(** *** Getting rid of the generator directives *)

Section Directives.
Implicit Types (tmpl : templatev1.Template) (values : gmap string string).

(** When no two parameters share a name, every parameter is the one its
    name leads to. *)
Lemma GetParameterByName_NoDup tmpl i v :
  NoDup (names tmpl) ->
  templatev1.Parameters tmpl !! i = Some v ->
  templateprocessing.GetParameterByName tmpl (templatev1.Name v) = Some i.
Proof.
  intros Hnodup Hv.
  assert (names tmpl !! i = Some (templatev1.Name v)) as Hi.
  { unfold names. by rewrite list_lookup_fmap, Hv. }
  destruct (templateprocessing.GetParameterByName tmpl (templatev1.Name v))
    as [j|] eqn:Hj.
  - apply GetParameterByName_Some in Hj as (w & Hw & Hname).
    f_equal. apply (NoDup_lookup (names tmpl) j i (templatev1.Name v) Hnodup); [|done].
    unfold names. by rewrite list_lookup_fmap, Hw, <- Hname.
  - apply GetParameterByName_None in Hj. exfalso. apply Hj.
    by apply list_elem_of_lookup_2 in Hi.
Qed.

(** X11.  If no two parameters of the template share a name and the values
    name every parameter that has a generator directive, then after the loop
    over the values no parameter has a generator directive. *)
Theorem injectValues_clears_directives tmpl values :
  NoDup (names tmpl) ->
  (forall v, v ∈ templatev1.Parameters tmpl ->
             templatev1.Generate v <> "" ->
             is_Some (values !! templatev1.Name v)) ->
  Forall (fun v => templatev1.Generate v = "")
         (templatev1.Parameters (map_fold injectValue tmpl values)).
Proof.
  intros Hnodup Hnamed. apply Forall_lookup. intros i v' Hv'.
  assert (exists v, templatev1.Parameters tmpl !! i = Some v) as [v Hv].
  { apply lookup_lt_is_Some.
    rewrite <- (length_fmap templatev1.Name). fold (names tmpl).
    rewrite <- (injectValues_names tmpl values). unfold names.
    rewrite length_fmap. by apply lookup_lt_is_Some. }
  pose proof (GetParameterByName_NoDup tmpl i v Hnodup Hv) as Hi.
  destruct (values !! templatev1.Name v) as [val|] eqn:Hval.
  - rewrite (injectValues_delete _ _ _ _ Hval) in Hv'.
    erewrite injectValue_lookup_eq in Hv'.
    + by injection Hv' as <-.
    + by rewrite GetParameterByName_injectValues.
    + rewrite <- Hv.
      apply (injectValues_lookup_None _ _ (templatev1.Name v)); [|done].
      apply lookup_delete_eq.
  - rewrite (injectValues_lookup_None _ _ _ _ Hval Hi), Hv in Hv'.
    injection Hv' as <-.
    destruct (decide (templatev1.Generate v = "")) as [|Hdirective]; [done|].
    destruct (Hnamed v) as [val Hsome]; [by eapply list_elem_of_lookup_2|done|].
    congruence.
Qed.

End Directives.

(** ** The claims on sample data *)




Lemma Process_overrides_witness :
  templatev1.Parameters (map_fold injectValue sample.template sample.john) !! 0 =
  Some {| templatev1.Name := "USERNAME"; templatev1.DisplayName := "";
          templatev1.Description := ""; templatev1.Value := "john";
          templatev1.Generate := ""; templatev1.From := "";
          templatev1.Required := true |} /\
  sample.render sample.present 0 sample.template sample.johnWithProject [] =
  sample.render sample.present 0 sample.template
    (delete "PROJECT" sample.johnWithProject) [].
Proof.
  split.
  - refine (proj2 (proj1 (Process_overrides sample.newSource sample.coin
                            sample.substitute sample.present 0%Z sample.template
                            sample.john [] "USERNAME" "john" _)
                     0 sample.username _ _)).
    all: vm_compute; reflexivity.
  - refine (proj2 (proj2 (proj2 (Process_overrides sample.newSource sample.coin
                                   sample.substitute sample.present 0%Z
                                   sample.template sample.johnWithProject []
                                   "PROJECT" "dev" _) _))).
    all: vm_compute; reflexivity.
Defined.

Lemma Process_outcome_witness :
  (sample.render sample.present 0 sample.template sample.john []).2 =
  ([sample.raw 0; sample.raw 1], None).
Proof.
  refine (proj2 (proj2 (Process_outcome sample.newSource sample.coin
                          sample.substitute sample.present 0%Z sample.template
                          sample.john []
                          (sample.render sample.present 0 sample.template sample.john []).1
                          [] _))
                eq_refl
                (sample.render sample.present 0 sample.template sample.john []).1 _).
  all: vm_compute; reflexivity.
Defined.

(** C5 as stated fails: the engine reports no error, the scheme cannot
    convert the template, and [Process] returns an error and not the objects
    of the template. *)
Lemma Process_conversion_refused :
  (templateprocessing.Process sample.substitute
     (templateprocessing.NewProcessor {[ "expression" := sample.coin ]})
     (map_fold injectValue sample.template sample.john)
     (sample.newSource 0)).2 = [] /\
  (sample.render sample.unconvertible 0 sample.template sample.john []).2 =
  ([], Some (Wrap (ErrorString
                     "converting (v1.Template) to (v1.Template): unknown conversion")
               "failed to convert template to external template object")).
Proof. split; vm_compute; reflexivity. Qed.

Lemma Process_deterministic_witness :
  sample.render sample.present 0 sample.template sample.johnWithToken [] =
  sample.render sample.present 1 sample.template sample.johnWithToken [].
Proof.
  apply (Process_deterministic sample.newSource sample.coin sample.substitute
           sample.present 0%Z 1%Z sample.template sample.johnWithToken []).
  vm_compute. repeat constructor.
Defined.

(** With a generator directive left in place, what [Process] does depends
    on the clock. *)
Example Process_clock_dependent :
  sample.render sample.present 0 sample.template sample.john [] <>
  sample.render sample.present 1 sample.template sample.john [].
Proof. vm_compute. discriminate. Qed.

Lemma Apply_create_failure_aborts_witness :
  Apply sample.gvk (recorded sample.readonly)
    [sample.raw 0; sample.raw 1] sample.heap (tt, []) =
  (Some (Wrapf
           (Wrapf sample.forbidden "failed to create object %v"
              [ArgV (runtime.OUnstructured sample.tier)])
           "unable to create resource of kind: %s, version: %s"
           [ArgS "NSTemplateTier"; ArgS "v1alpha1"]),
   sample.heap,
   (tt, [client.CallCreate (runtime.OUnstructured sample.tier)])).
Proof.
  exact (Apply_create_failure_aborts sample.gvk sample.readonly
           [] (sample.raw 0) [sample.raw 1] sample.heap tt []
           sample.heap tt [] 0 sample.forbidden tt
           eq_refl eq_refl eq_refl eq_refl).
Defined.

Lemma Apply_existing_typed_updates_witness :
  Apply sample.gvk (recorded sample.stale)
    [sample.raw 1; sample.raw 0] sample.heap (tt, []) =
  (Some (Wrapf
           (Wrapf sample.conflict "failed to update object %v"
              [ArgV (runtime.OTyped sample.ns)])
           "unable to create resource of kind: %s, version: %s"
           [ArgS "Namespace"; ArgS "v1"]),
   sample.heap,
   (tt, [client.CallCreate (runtime.OTyped sample.ns);
         client.CallUpdate (runtime.OTyped sample.ns)])).
Proof.
  exact (Apply_existing_typed_updates sample.gvk sample.stale
           [] (sample.raw 1) [sample.raw 0] sample.heap tt []
           sample.heap tt [] 1 sample.ns sample.alreadyExists tt
           eq_refl eq_refl eq_refl eq_refl eq_refl).
Defined.

Lemma createOrUpdateObj_touches_resource_version_only_witness :
  exists u' err h' s3,
    createOrUpdateObj (client.recording (cl sample.present)) 0 sample.heap (tt, []) =
    (err, h',
     (s3, [client.CallCreate (runtime.OUnstructured sample.tier);
           client.CallGet
             {| types.Namespace := "toolchain-host-operator"; types.Name := "basic" |}
             (existingFor sample.tier);
           client.CallUpdate (runtime.OUnstructured u')])) /\
    unstructured.GetResourceVersion u' = "42" /\
    unstructured.GetKind u' = "NSTemplateTier" /\
    unstructured.GetAPIVersion u' = "toolchain.dev.openshift.com/v1alpha1" /\
    unstructured.GetNamespace u' = "toolchain-host-operator" /\
    unstructured.GetName u' = "basic" /\
    unstructured.Fields u' = [("spec", "{}")] /\
    h' 0 = runtime.OUnstructured u' /\
    (forall other, other <> 0 -> h' other = sample.heap other).
Proof.
  exact (createOrUpdateObj_touches_resource_version_only
           (cl sample.present) 0 sample.heap tt [] sample.tier
           sample.alreadyExists tt
           (unstructured.SetResourceVersion (existingFor sample.tier) "42") tt
           eq_refl eq_refl eq_refl eq_refl).
Defined.

Lemma Apply_created_witness :
  (Apply sample.gvk (recorded sample.fresh)
     [sample.raw 0] sample.heap (tt, [])).1.1 = None /\
  (Apply sample.gvk (recorded sample.fresh)
     [sample.raw 0] sample.heap (tt, [])).2 =
  (tt, [client.CallCreate (runtime.OUnstructured sample.tier)]) /\
  exists h2,
    Apply sample.gvk (recorded sample.fresh)
      [sample.raw 0; sample.raw 1] sample.heap (tt, []) =
    Apply sample.gvk (recorded sample.fresh) [sample.raw 1] h2
      (tt, [client.CallCreate (runtime.OUnstructured sample.tier)]).
Proof.
  exact (Apply_created sample.gvk sample.fresh
           [] (sample.raw 0) [sample.raw 1] sample.heap tt []
           sample.heap tt [] 0 tt eq_refl eq_refl eq_refl).
Defined.

Lemma Apply_batches_witness :
  Apply sample.gvk sample.readonly [sample.raw 0; sample.raw 1] sample.heap tt =
  (Some (Wrapf
           (Wrapf sample.forbidden "failed to create object %v"
              [ArgV (runtime.OUnstructured sample.tier)])
           "unable to create resource of kind: %s, version: %s"
           [ArgS "NSTemplateTier"; ArgS "v1alpha1"]),
   sample.heap, tt) /\
  Apply sample.gvk sample.fresh [sample.raw 0; sample.raw 1] sample.heap tt =
  Apply sample.gvk sample.fresh [sample.raw 1] sample.heap tt.
Proof.
  split.
  - exact (proj1 (Apply_batches sample.gvk sample.readonly
                    [sample.raw 0] [sample.raw 1] sample.heap tt)
             _ _ _ eq_refl).
  - exact (proj2 (Apply_batches sample.gvk sample.fresh
                    [sample.raw 0] [sample.raw 1] sample.heap tt)
             _ _ eq_refl).
Defined.

Lemma Apply_get_failure_aborts_witness :
  Apply sample.gvk (recorded sample.unreadable)
    [sample.raw 0; sample.raw 1] sample.heap (tt, []) =
  (Some (Wrapf
           (Wrapf sample.forbidden
              "unable to get the resource of kind '%s' and name '%s' in namespace '%s'"
              [ArgS "NSTemplateTier"; ArgS "basic"; ArgS "toolchain-host-operator"])
           "unable to create resource of kind: %s, version: %s"
           [ArgS "NSTemplateTier"; ArgS "v1alpha1"]),
   sample.heap,
   (tt, [client.CallCreate (runtime.OUnstructured sample.tier);
         client.CallGet
           {| types.Namespace := "toolchain-host-operator"; types.Name := "basic" |}
           (existingFor sample.tier)])).
Proof.
  exact (Apply_get_failure_aborts sample.gvk sample.unreadable
           [] (sample.raw 0) [sample.raw 1] sample.heap tt []
           sample.heap tt [] 0 sample.tier sample.alreadyExists tt
           sample.forbidden
           (unstructured.SetResourceVersion (existingFor sample.tier) "42") tt
           eq_refl eq_refl eq_refl eq_refl eq_refl eq_refl).
Defined.

Lemma injectValues_any_two_orders_witness :
  foldl (fun tmpl entry => injectValue entry.1 entry.2 tmpl) sample.template
    [("USERNAME", "john"); ("TOKEN", "s3cr3t")] =
  foldl (fun tmpl entry => injectValue entry.1 entry.2 tmpl) sample.template
    [("TOKEN", "s3cr3t"); ("USERNAME", "john")].
Proof.
  apply (injectValues_any_two_orders sample.template sample.johnWithToken);
    vm_compute; first [reflexivity | apply perm_swap].
Defined.

Lemma injectValues_clears_directives_witness :
  Forall (fun v => templatev1.Generate v = "")
         (templatev1.Parameters
            (map_fold injectValue sample.template sample.johnWithToken)).
Proof.
  apply (injectValues_clears_directives sample.template sample.johnWithToken).
  - apply (bool_decide_unpack _). vm_compute. exact I.
  - intros v Hv%list_elem_of_In Hdirective.
    destruct Hv as [<-|[<-|[]]]; [done|].
    eexists. vm_compute. reflexivity.
Defined.


(** When the [Create] of the tier is refused, the text of the error has the
    name and the namespace of the tier through the object as a whole. *)
Example Apply_create_error_carried :
  carried
    (Wrapf
       (Wrapf sample.forbidden "failed to create object %v"
          [ArgV (runtime.OUnstructured sample.tier)])
       "unable to create resource of kind: %s, version: %s"
       [ArgS "NSTemplateTier"; ArgS "v1alpha1"]) =
  ["NSTemplateTier"; "v1alpha1"; "NSTemplateTier";
   "toolchain.dev.openshift.com/v1alpha1"; "toolchain-host-operator"; "basic";
   ""; "{}"].
Proof. reflexivity. Qed.

(** On the sample, the caller's template comes back with the value given
    for USERNAME and the value generated for TOKEN. *)
Example Process_template_sample :
  templatev1.Parameters
    (sample.render sample.present 0 sample.template sample.john []).1 =
  [templatev1.setValue sample.username "john";
   templatev1.setValue sample.token "heads"].
Proof. vm_compute. reflexivity. Qed.

Lemma Apply_calls_witness :
  exists calls rest,
    entryCalls (runtime.OUnstructured sample.tier) calls /\
    length calls <= 3 /\
    (Apply sample.gvk (recorded sample.present)
       [sample.raw 1; sample.raw 0] sample.heap (tt, [])).2.2 =
    [client.CallCreate (runtime.OTyped sample.ns);
     client.CallUpdate (runtime.OTyped sample.ns)] ++ calls /\
    (Apply sample.gvk (recorded sample.present)
       [sample.raw 1; sample.raw 0; sample.raw 1] sample.heap (tt, [])).2.2 =
    [client.CallCreate (runtime.OTyped sample.ns);
     client.CallUpdate (runtime.OTyped sample.ns)] ++ calls ++ rest /\
    ((Apply sample.gvk (recorded sample.present)
        [sample.raw 1; sample.raw 0] sample.heap (tt, [])).1.1 <> None ->
     rest = []).
Proof.
  exact (Apply_calls sample.gvk sample.present
           [sample.raw 1] (sample.raw 0) [sample.raw 1] sample.heap tt []
           sample.heap tt
           [client.CallCreate (runtime.OTyped sample.ns);
            client.CallUpdate (runtime.OTyped sample.ns)]
           0 eq_refl eq_refl).
Defined.
